(** * Request gatekeeper of [src/middleware.ts]

    A shallow embedding of the Next.js middleware that gates every request
    on the route it asks for and on the decoded session token, followed by
    the properties of its decision.

    JavaScript strings are embedded as [string]; the path names and URLs the
    middleware sees are serialised URLs, hence ASCII, so that one character
    of [string] is one code unit of the source string. *)

From Stdlib Require Import Bool List Lia.
From Stdlib Require Import Ascii String.
Import ListNotations.

Open Scope string_scope.
Open Scope bool_scope.

(* ================================================================= *)
(** ** The pieces of the platform the middleware calls *)

(** [s.startsWith(p)]. *)
Fixpoint startsWith (s p : string) {struct p} : bool :=
  match p with
  | EmptyString => true
  | String b p' =>
      match s with
      | EmptyString => false
      | String a s' => Ascii.eqb a b && startsWith s' p'
      end
  end.

(** [`${route}/`]. *)
Definition with_slash (route : string) : string := route ++ "/".

(** The part of a WHATWG [URL] object that the middleware reads or builds:
    [search] is empty or begins with a question mark, as in the platform
    object.  The fragment never reaches a server and is left out. *)
Record URL : Type := mkURL {
  origin : string;
  pathname : string;
  search : string
}.

(** [url.href]. *)
Definition href (u : URL) : string := origin u ++ pathname u ++ search u.

(** The request: [request.nextUrl] is the parsed URL and [request.url] its
    serialisation. *)
Record NextRequest : Type := mkRequest {
  nextUrl : URL
}.

Definition url (request : NextRequest) : string := href (nextUrl request).

(** Cut a string at the first occurrence of [c]; the second component
    keeps [c] and is empty when [c] does not occur. *)
Fixpoint cut_at (c : ascii) (s : string) : string * string :=
  match s with
  | EmptyString => (EmptyString, EmptyString)
  | String a rest =>
      if Ascii.eqb a c then (EmptyString, s)
      else let (before, after) := cut_at c rest in (String a before, after)
  end.

(** [new URL(reference, base)] for a path-absolute [reference] (one that
    begins with a slash), which is how the middleware calls it: the origin
    is the one of [base], the path and the query are those written in the
    reference. *)
Definition new_URL (reference : string) (base : URL) : URL :=
  let (path, query) := cut_at "?" reference in
  {| origin := origin base; pathname := path; search := query |}.

(** *** Percent-encoding *)

Definition between (lo hi : nat) (c : ascii) : bool :=
  Nat.leb lo (nat_of_ascii c) && Nat.leb (nat_of_ascii c) hi.

Definition is_digit (c : ascii) : bool := between 48 57 c.
Definition is_upper (c : ascii) : bool := between 65 90 c.
Definition is_lower (c : ascii) : bool := between 97 122 c.
Definition is_alnum (c : ascii) : bool := is_digit c || is_upper c || is_lower c.

(** Is [c] one of the characters of [set]? *)
Fixpoint one_of (set : string) (c : ascii) : bool :=
  match set with
  | EmptyString => false
  | String a rest => Ascii.eqb c a || one_of rest c
  end.

Definition hex_digit (n : nat) : ascii :=
  match String.get n "0123456789ABCDEF" with
  | Some c => c
  | None => "0"%char
  end.

(** [%XY], with upper-case hexadecimal digits. *)
Definition percent_encode_byte (c : ascii) : string :=
  String "%" (String (hex_digit (Nat.div (nat_of_ascii c) 16))
                (String (hex_digit (Nat.modulo (nat_of_ascii c) 16))
                        EmptyString)).

Definition hex_value (c : ascii) : option nat :=
  if is_digit c then Some (nat_of_ascii c - 48)
  else if between 65 70 c then Some (nat_of_ascii c - 55)
  else if between 97 102 c then Some (nat_of_ascii c - 87)
  else None.

(** Percent-decoding of the URL standard: a percent sign that is not
    followed by two hexadecimal digits stands for itself. *)
Fixpoint percent_decode (s : string) : string :=
  match s with
  | EmptyString => EmptyString
  | String a tail =>
      if Ascii.eqb a "%" then
        match tail with
        | String h (String l rest) =>
            match hex_value h, hex_value l with
            | Some x, Some y =>
                String (ascii_of_nat (16 * x + y)) (percent_decode rest)
            | _, _ => String a (percent_decode tail)
            end
        | _ => String a (percent_decode tail)
        end
      else String a (percent_decode tail)
  end.

(** Map every character to a string and concatenate. *)
Fixpoint flat_map_string (f : ascii -> string) (s : string) : string :=
  match s with
  | EmptyString => EmptyString
  | String a rest => f a ++ flat_map_string f rest
  end.

(** The characters [encodeURI] leaves alone: the reserved and the
    unescaped characters of ECMAScript, and the number sign. *)
Definition uri_unescaped (c : ascii) : bool :=
  is_alnum c || one_of ";/?:@&=+$,-_.!~*'()#" c.

(** [encodeURI(s)]. *)
Definition encodeURI (s : string) : string :=
  flat_map_string
    (fun c => if uri_unescaped c then String c EmptyString
              else percent_encode_byte c) s.

(** *** Query strings ([application/x-www-form-urlencoded]) *)

Definition urlencode_byte (c : ascii) : string :=
  if is_alnum c || one_of "*-._" c then String c EmptyString
  else if Ascii.eqb c " " then "+"
  else percent_encode_byte c.

Definition urlencode (s : string) : string :=
  flat_map_string urlencode_byte s.

Definition plus_to_space (s : string) : string :=
  flat_map_string
    (fun c => String (if Ascii.eqb c "+" then " "%char else c) EmptyString) s.

Definition urldecode (s : string) : string :=
  percent_decode (plus_to_space s).

Fixpoint join (sep : string) (l : list string) : string :=
  match l with
  | [] => EmptyString
  | [x] => x
  | x :: rest => x ++ sep ++ join sep rest
  end.

(** The serialiser: [name=value] pairs joined by ampersands. *)
Definition urlencoded_serialize (l : list (string * string)) : string :=
  join "&" (map (fun nv => urlencode (fst nv) ++ "=" ++ urlencode (snd nv)) l).

(** Split at every occurrence of [c]. *)
Fixpoint split_on (c : ascii) (s : string) : list string :=
  match s with
  | EmptyString => [EmptyString]
  | String a rest =>
      if Ascii.eqb a c then EmptyString :: split_on c rest
      else match split_on c rest with
           | first :: others => String a first :: others
           | [] => [String a EmptyString]
           end
  end.

Definition drop_first (s : string) : string :=
  match s with
  | EmptyString => EmptyString
  | String _ rest => rest
  end.

Definition parse_pair (sequence : string) : string * string :=
  let (name, value) := cut_at "=" sequence in
  (urldecode name, urldecode (drop_first value)).

(** The parser: empty sequences are skipped, a sequence without an equals
    sign is a name with an empty value. *)
Definition urlencoded_parse (s : string) : list (string * string) :=
  map parse_pair
      (filter (fun sequence => negb (String.eqb sequence EmptyString))
              (split_on "&" s)).

(** [url.searchParams], as the list of its pairs. *)
Definition searchParams (u : URL) : list (string * string) :=
  urlencoded_parse
    (if startsWith (search u) "?" then drop_first (search u) else search u).

(** [url.searchParams.get(name)]: the value of the first pair named
    [name]. *)
Definition searchParams_get (name : string) (u : URL) : option string :=
  option_map snd (find (fun nv => String.eqb (fst nv) name) (searchParams u)).

(** The list after [set(name, value)]: the first pair named [name] takes
    the value and the later ones go; without such a pair one is appended. *)
Fixpoint set_pair (name value : string) (l : list (string * string))
  : list (string * string) :=
  match l with
  | [] => [(name, value)]
  | nv :: rest =>
      if String.eqb (fst nv) name
      then (name, value)
             :: filter (fun nv' => negb (String.eqb (fst nv') name)) rest
      else nv :: set_pair name value rest
  end.

(** [url.searchParams.set(name, value)]: the list is updated and written
    back to the query of the URL. *)
Definition searchParams_set (name value : string) (u : URL) : URL :=
  let query := urlencoded_serialize (set_pair name value (searchParams u)) in
  {| origin := origin u;
     pathname := pathname u;
     search := if String.eqb query EmptyString then EmptyString
               else String "?" query |}.

(* ================================================================= *)
(** ** The session token *)

(** Modelled from the spec: the declaration of [UserRole] in
    [@/types/models] is not part of the sources at hand.  The middleware
    only compares the claim with [ADMIN], [AGENT], [EMPLOYEE] and [USER];
    a claim of a decoded token that is none of the four is [OTHER_ROLE]. *)
Inductive UserRole : Type :=
  | ADMIN
  | AGENT
  | EMPLOYEE
  | USER
  | OTHER_ROLE (claim : string).

(** Modelled from the spec: the declaration of [ApprovalStatus] in
    [@/types/models] is not part of the sources at hand.  The middleware
    only compares the claim with [APPROVED]. *)
Inductive ApprovalStatus : Type :=
  | APPROVED
  | NOT_APPROVED (claim : string).

(** The claims of the decoded token that the middleware reads; [isActive]
    is the truth value the source tests with [!isActive]. *)
Record JWT : Type := mkJWT {
  role : UserRole;
  approvalStatus : ApprovalStatus;
  isActive : bool
}.

(** [a === b] on roles. *)
Definition role_eqb (a b : UserRole) : bool :=
  match a, b with
  | ADMIN, ADMIN | AGENT, AGENT | EMPLOYEE, EMPLOYEE | USER, USER => true
  | OTHER_ROLE x, OTHER_ROLE y => String.eqb x y
  | _, _ => false
  end.

(** [a === b] on approval states. *)
Definition status_eqb (a b : ApprovalStatus) : bool :=
  match a, b with
  | APPROVED, APPROVED => true
  | NOT_APPROVED x, NOT_APPROVED y => String.eqb x y
  | _, _ => false
  end.

(* ================================================================= *)
(** ** The middleware *)

(** What the middleware returns: [NextResponse.next()] lets the request
    through, [NextResponse.redirect(url)] answers with a redirect. *)
Module NextResponse.
Inductive t : Type :=
  | next
  | redirect (target : URL).
End NextResponse.

Definition publicRoutes : list string :=
  [ "/";
    "/login";
    "/register";
    "/register/agent";
    "/register/employee";
    "/approval";
    "/forgot-password";
    "/reset-password";
    "/map";
    "/rate";
    "/callback" ].

Definition publicApiRoutes : list string :=
  [ "/api/public/";
    "/api/agents/nearby";
    "/api/auth/";
    "/api/users/search";
    "/api/ratings";
    "/api/callbacks";
    "/api/questions";
    "/api/complaints";
    "/api/locations";
    "/api/locations/search";
    "/api/locations/autocomplete";
    "/api/locations/geocode";
    "/api/locations/reverse-geocode" ].

Definition isPublicRoute (pathname : string) : bool :=
  existsb
    (fun route =>
       String.eqb pathname route || startsWith pathname (with_slash route))
    publicRoutes.

Definition isPublicApiRoute (pathname : string) : bool :=
  existsb (fun route => startsWith pathname route) publicApiRoutes.

(** The test of the first [if]: the prefixes of the public assets. *)
Definition isPublicAsset (pathname : string) : bool :=
  startsWith pathname "/_next" ||
  startsWith pathname "/images" ||
  startsWith pathname "/fonts" ||
  startsWith pathname "/favicon".

(** [middleware(request)], where [token] is what the awaited
    [getToken({ req: request, secret })] gave: the decoded token, or
    [None] for [null].  The base [request.url] of every [new URL] is
    passed in its parsed form, [request.nextUrl]. *)
Definition middleware (request : NextRequest) (token : option JWT)
  : NextResponse.t :=
  let pathname := pathname (nextUrl request) in
  if isPublicAsset pathname then NextResponse.next
  else if isPublicRoute pathname || isPublicApiRoute pathname then
    match token with
    | Some token =>
        if String.eqb pathname "/login" || startsWith pathname "/register"
        then
          if negb (role_eqb (role token) ADMIN) &&
             negb (role_eqb (role token) USER) &&
             negb (status_eqb (approvalStatus token) APPROVED)
          then NextResponse.redirect (new_URL "/approval" (nextUrl request))
          else if role_eqb (role token) ADMIN
          then NextResponse.redirect (new_URL "/admin" (nextUrl request))
          else if role_eqb (role token) AGENT
          then NextResponse.redirect (new_URL "/agent" (nextUrl request))
          else if role_eqb (role token) EMPLOYEE
          then NextResponse.redirect (new_URL "/employee" (nextUrl request))
          else NextResponse.redirect (new_URL "/" (nextUrl request))
        else NextResponse.next
    | None => NextResponse.next
    end
  else
    match token with
    | None =>
        let url' := new_URL "/login" (nextUrl request) in
        NextResponse.redirect
          (searchParams_set "callbackUrl" (encodeURI (url request)) url')
    | Some token =>
        if negb (isActive token) then
          NextResponse.redirect
            (new_URL "/login?error=Account%20is%20inactive" (nextUrl request))
        else if negb (role_eqb (role token) ADMIN) &&
                negb (role_eqb (role token) USER) &&
                negb (status_eqb (approvalStatus token) APPROVED)
        then NextResponse.redirect (new_URL "/approval" (nextUrl request))
        else if startsWith pathname "/admin" &&
                negb (role_eqb (role token) ADMIN)
        then NextResponse.redirect (new_URL "/" (nextUrl request))
        else if startsWith pathname "/agent" &&
                negb (role_eqb (role token) AGENT)
        then NextResponse.redirect (new_URL "/" (nextUrl request))
        else if startsWith pathname "/employee" &&
                negb (role_eqb (role token) EMPLOYEE)
        then NextResponse.redirect (new_URL "/" (nextUrl request))
        else NextResponse.next
    end.

(** The class of a path, in the order in which the middleware tests. *)
Inductive RouteClass : Type :=
  | StaticAsset
  | PublicPage
  | PublicApi
  | Protected.

Definition classify (pathname : string) : RouteClass :=
  if isPublicAsset pathname then StaticAsset
  else if isPublicRoute pathname then PublicPage
  else if isPublicApiRoute pathname then PublicApi
  else Protected.

(* ================================================================= *)
(** ** Vocabulary of the properties *)

(** The redirect to the path [path] on the origin of the request, without
    a query: what [NextResponse.redirect(new URL(path, request.url))] is
    for a [path] without a question mark. *)
Definition redirect_to (request : NextRequest) (path : string)
  : NextResponse.t :=
  NextResponse.redirect
    {| origin := origin (nextUrl request); pathname := path; search := "" |}.

(** The home of a role. *)
Definition role_home (r : UserRole) : string :=
  match r with
  | ADMIN => "/admin"
  | AGENT => "/agent"
  | EMPLOYEE => "/employee"
  | USER | OTHER_ROLE _ => "/"
  end.

(** A path is public when it is a public page or a public API route. *)
Definition isPublic (pathname : string) : bool :=
  isPublicRoute pathname || isPublicApiRoute pathname.

(** The test that stands for each class of paths. *)
Definition in_class (c : RouteClass) (pathname : string) : bool :=
  match c with
  | StaticAsset => isPublicAsset pathname
  | PublicPage => isPublicRoute pathname
  | PublicApi => isPublicApiRoute pathname
  | Protected =>
      negb (isPublicAsset pathname) && negb (isPublicRoute pathname) &&
      negb (isPublicApiRoute pathname)
  end.

(** The path and the query of a redirect, [None] for a pass-through. *)
Definition target_path (d : NextResponse.t) : option string :=
  match d with
  | NextResponse.next => None
  | NextResponse.redirect target => Some (pathname target)
  end.

Definition target_query (d : NextResponse.t) : option string :=
  match d with
  | NextResponse.next => None
  | NextResponse.redirect target => Some (search target)
  end.

(** The requests and tokens used as examples below. *)
Definition request_for (path query : string) : NextRequest :=
  {| nextUrl := {| origin := "https://app.test";
                   pathname := path;
                   search := query |} |}.

Definition inactive_agent : JWT :=
  {| role := AGENT; approvalStatus := APPROVED; isActive := false |}.

Definition approved_agent : JWT :=
  {| role := AGENT; approvalStatus := APPROVED; isActive := true |}.

Definition pending_agent : JWT :=
  {| role := AGENT; approvalStatus := NOT_APPROVED "PENDING";
     isActive := true |}.

Definition active_admin : JWT :=
  {| role := ADMIN; approvalStatus := APPROVED; isActive := true |}.

Definition inactive_admin : JWT :=
  {| role := ADMIN; approvalStatus := APPROVED; isActive := false |}.

Definition inactive_user : JWT :=
  {| role := USER; approvalStatus := APPROVED; isActive := false |}.

(** Do all the characters of [s] pass the test [f]? *)
Fixpoint all_chars (f : ascii -> bool) (s : string) : bool :=
  match s with
  | EmptyString => true
  | String a rest => f a && all_chars f rest
  end.

(** The three areas that the last checks of the middleware guard, each
    with the role it is for. *)
Definition role_areas : list (string * UserRole) :=
  [ ("/admin", ADMIN); ("/agent", AGENT); ("/employee", EMPLOYEE) ].

(** The decision at the end of a chain of redirects: a client that is
    redirected asks for the target with the token it has, at most [hops]
    times. *)
Fixpoint follow (hops : nat) (request : NextRequest) (token : option JWT)
  : NextResponse.t :=
  match middleware request token with
  | NextResponse.next => NextResponse.next
  | NextResponse.redirect target =>
      match hops with
      | O => NextResponse.redirect target
      | S hops' => follow hops' {| nextUrl := target |} token
      end
  end.

(* ================================================================= *)
(** ** Facts about the platform functions *)

Section StringFacts.

Lemma startsWith_cons (s p : string) (b : ascii) :
  startsWith s (String b p) = true <->
  exists s', s = String b s' /\ startsWith s' p = true.
Proof.
  split.
  - destruct s as [|a s']; simpl; [discriminate|].
    intros H. apply andb_true_iff in H. destruct H as [Hab Hp].
    apply Ascii.eqb_eq in Hab. subst a. now exists s'.
  - intros [s' [-> Hp]]. simpl. now rewrite Ascii.eqb_refl.
Qed.

(** [startsWith] is the prefix relation. *)
Lemma startsWith_iff (p s : string) :
  startsWith s p = true <-> exists rest, s = p ++ rest.
Proof.
  revert s. induction p as [|b p IH]; intros s.
  - simpl. split; [intros _; now exists s | reflexivity].
  - rewrite startsWith_cons. split.
    + intros [s' [-> Hp]]. apply IH in Hp. destruct Hp as [rest ->].
      now exists rest.
    + intros [rest ->]. exists (p ++ rest). split; [reflexivity|].
      apply IH. now exists rest.
Qed.

Lemma append_assoc (s t u : string) : (s ++ t) ++ u = s ++ (t ++ u).
Proof. induction s as [|a s IH]; simpl; [reflexivity | now rewrite IH]. Qed.

Lemma append_nil_r (s : string) : s ++ "" = s.
Proof. induction s as [|a s IH]; simpl; [reflexivity | now rewrite IH]. Qed.

End StringFacts.

Ltac each_byte a := destruct a as [[] [] [] [] [] [] [] []].

Section UrlEncoding.

Lemma urldecode_urlencode_byte (a : ascii) (rest : string) :
  urldecode (urlencode_byte a ++ rest) = String a (urldecode rest).
Proof. each_byte a; reflexivity. Qed.

(** Decoding undoes encoding. *)
Lemma urldecode_urlencode (s : string) : urldecode (urlencode s) = s.
Proof.
  induction s as [|a s IH]; [reflexivity|].
  change (urlencode (String a s)) with (urlencode_byte a ++ urlencode s).
  now rewrite urldecode_urlencode_byte, IH.
Qed.

Lemma one_of_app (x y : string) (c : ascii) :
  one_of (x ++ y) c = one_of x c || one_of y c.
Proof.
  induction x as [|a x IH]; simpl; [reflexivity|].
  now rewrite IH, orb_assoc.
Qed.

Lemma one_of_flat_map (f : ascii -> string) (c : ascii) (s : string) :
  (forall a, one_of (f a) c = false) -> one_of (flat_map_string f s) c = false.
Proof.
  intros Hf. induction s as [|a s IH]; simpl; [reflexivity|].
  now rewrite one_of_app, Hf, IH.
Qed.

Lemma cut_at_app (c : ascii) (x rest : string) :
  one_of x c = false ->
  cut_at c (x ++ rest) = (x ++ fst (cut_at c rest), snd (cut_at c rest)).
Proof.
  induction x as [|a x IH]; simpl; intros H.
  - now destruct (cut_at c rest).
  - apply orb_false_iff in H. destruct H as [Hca Hx].
    rewrite Ascii.eqb_sym, Hca, (IH Hx). reflexivity.
Qed.

Lemma split_on_not_nil (c : ascii) (s : string) : split_on c s <> [].
Proof.
  induction s as [|a s IH]; simpl; [discriminate|].
  destruct (Ascii.eqb a c); [discriminate|].
  destruct (split_on c s); discriminate.
Qed.

Lemma split_on_app (c : ascii) (x rest : string) :
  one_of x c = false ->
  split_on c (x ++ rest) =
  (x ++ hd "" (split_on c rest)) :: tl (split_on c rest).
Proof.
  induction x as [|a x IH]; simpl; intros H.
  - pose proof (split_on_not_nil c rest) as Hne.
    destruct (split_on c rest); [contradiction | reflexivity].
  - apply orb_false_iff in H. destruct H as [Hca Hx].
    rewrite Ascii.eqb_sym, Hca, (IH Hx). reflexivity.
Qed.

Lemma urlencode_byte_no_equals (a : ascii) :
  one_of (urlencode_byte a) "=" = false.
Proof. each_byte a; reflexivity. Qed.

Lemma urlencode_byte_no_ampersand (a : ascii) :
  one_of (urlencode_byte a) "&" = false.
Proof. each_byte a; reflexivity. Qed.

(** An encoded name has no equals sign: the cut falls after it. *)
Lemma cut_at_urlencode (name rest : string) :
  cut_at "=" (urlencode name ++ String "=" rest) =
  (urlencode name, String "=" rest).
Proof.
  rewrite cut_at_app
    by (apply one_of_flat_map, urlencode_byte_no_equals).
  simpl. now rewrite append_nil_r.
Qed.

Lemma parse_pair_urlencode (name value : string) :
  parse_pair (urlencode name ++ "=" ++ urlencode value) = (name, value).
Proof.
  unfold parse_pair. change ("=" ++ urlencode value)
    with (String "=" (urlencode value)).
  rewrite cut_at_urlencode. simpl drop_first.
  now rewrite !urldecode_urlencode.
Qed.

(** An encoded pair has no ampersand. *)
Lemma split_on_pair (name value rest : string) :
  split_on "&" ((urlencode name ++ "=" ++ urlencode value) ++ rest) =
  ((urlencode name ++ "=" ++ urlencode value) ++ hd "" (split_on "&" rest))
    :: tl (split_on "&" rest).
Proof.
  apply split_on_app. rewrite !one_of_app. unfold urlencode.
  rewrite !one_of_flat_map by apply urlencode_byte_no_ampersand.
  reflexivity.
Qed.

Lemma pair_not_empty (name value : string) :
  String.eqb (urlencode name ++ "=" ++ urlencode value) "" = false.
Proof. now destruct (urlencode name). Qed.

Lemma urlencoded_serialize_cons (nv : string * string)
      (l : list (string * string)) :
  urlencoded_serialize (nv :: l) =
  (urlencode (fst nv) ++ "=" ++ urlencode (snd nv)) ++
  match l with
  | [] => ""
  | _ :: _ => String "&" (urlencoded_serialize l)
  end.
Proof.
  unfold urlencoded_serialize. destruct l as [|nv' l]; simpl map; simpl join.
  - now rewrite append_nil_r.
  - reflexivity.
Qed.

(** Parsing undoes serialising. *)
Lemma urlencoded_parse_serialize (l : list (string * string)) :
  urlencoded_parse (urlencoded_serialize l) = l.
Proof.
  induction l as [|[name value] l IH]; [reflexivity|].
  rewrite urlencoded_serialize_cons. unfold urlencoded_parse in *.
  simpl fst. simpl snd. rewrite split_on_pair.
  destruct l as [|nv l].
  - simpl split_on. simpl hd. simpl tl. rewrite append_nil_r.
    simpl filter.
    change (String "=" (urlencode value)) with ("=" ++ urlencode value).
    rewrite pair_not_empty. simpl negb. cbv iota.
    rewrite map_cons. now rewrite parse_pair_urlencode.
  - remember (urlencoded_serialize (nv :: l)) as rest.
    simpl split_on. simpl hd. simpl tl. rewrite append_nil_r.
    simpl filter.
    change (String "=" (urlencode value)) with ("=" ++ urlencode value).
    rewrite pair_not_empty. simpl negb. cbv iota.
    rewrite map_cons. now rewrite parse_pair_urlencode, IH.
Qed.

Lemma urlencoded_serialize_empty (l : list (string * string)) :
  String.eqb (urlencoded_serialize l) "" = true -> l = [].
Proof.
  destruct l as [|nv l]; [reflexivity|].
  rewrite urlencoded_serialize_cons, append_assoc.
  destruct (urlencode (fst nv)); discriminate.
Qed.

Lemma find_set_pair (name value : string) (l : list (string * string)) :
  find (fun nv => String.eqb (fst nv) name) (set_pair name value l) =
  Some (name, value).
Proof.
  induction l as [|nv l IH]; simpl.
  - now rewrite String.eqb_refl.
  - destruct (String.eqb (fst nv) name) eqn:E; simpl.
    + now rewrite String.eqb_refl.
    + now rewrite E.
Qed.

Lemma searchParams_after_set (name value : string) (u : URL) :
  searchParams (searchParams_set name value u) =
  set_pair name value (searchParams u).
Proof.
  unfold searchParams_set.
  set (l := set_pair name value (searchParams u)).
  assert (Hl : l <> []) by (subst l; destruct (searchParams u) as [|nv r];
    simpl; [|destruct (String.eqb (fst nv) name)]; discriminate).
  destruct (String.eqb (urlencoded_serialize l) "") eqn:E.
  - apply urlencoded_serialize_empty in E. contradiction.
  - unfold searchParams. simpl. apply urlencoded_parse_serialize.
Qed.

(** [get] after [set] gives back the value that was set. *)
Lemma searchParams_get_set (name value : string) (u : URL) :
  searchParams_get name (searchParams_set name value u) = Some value.
Proof.
  unfold searchParams_get.
  now rewrite searchParams_after_set, find_set_pair.
Qed.

End UrlEncoding.

(* ================================================================= *)
(** ** The classification of paths *)

Ltac split_tests H :=
  repeat (apply orb_true_iff in H; destruct H as [H|H]).

(** From a route test that holds to the shape of the path. *)
Ltac path_shape H :=
  cbv [isPublicAsset isPublicRoute isPublicApiRoute publicRoutes
       publicApiRoutes existsb with_slash] in H;
  split_tests H;
  first [ discriminate H
        | apply String.eqb_eq in H; subst
        | apply startsWith_iff in H; destruct H as [? ->] ].

Section Classification.

Variable path : string.

Lemma asset_not_page : isPublicAsset path = true -> isPublicRoute path = false.
Proof. intros H. path_shape H; reflexivity. Qed.

Lemma asset_not_api :
  isPublicAsset path = true -> isPublicApiRoute path = false.
Proof. intros H. path_shape H; reflexivity. Qed.

Lemma page_not_api :
  isPublicRoute path = true -> isPublicApiRoute path = false.
Proof. intros H. path_shape H; reflexivity. Qed.

Lemma public_not_asset : isPublic path = true -> isPublicAsset path = false.
Proof.
  unfold isPublic. intros H.
  destruct (isPublicAsset path) eqn:E; [|reflexivity].
  now rewrite (asset_not_page E), (asset_not_api E) in H.
Qed.

(** X12: among the public paths, those that begin with [/register] are
    [/register] itself and the paths under [/register/]. *)
Lemma register_prefix_on_public :
  isPublic path = true ->
  startsWith path "/register" = true ->
  path = "/register" \/ startsWith path "/register/" = true.
Proof.
  unfold isPublic. intros H Hregister.
  apply orb_true_iff in H. destruct H as [H|H]; path_shape H;
    first [ discriminate Hregister
          | left; reflexivity
          | right; reflexivity ].
Qed.

End Classification.

(** Expose the three components of the URL of a request. *)
Ltac open_request request :=
  destruct request as [[?origin ?path ?query]]; cbn [nextUrl pathname] in *.

Section Tokens.

Lemma role_eqb_eq (a b : UserRole) : role_eqb a b = true <-> a = b.
Proof.
  destruct a, b; simpl; split; try congruence; try reflexivity.
  - intros H. apply String.eqb_eq in H. now subst.
  - intros H. injection H as ->. apply String.eqb_refl.
Qed.

Lemma status_eqb_eq (a b : ApprovalStatus) : status_eqb a b = true <-> a = b.
Proof.
  destruct a, b; simpl; split; try congruence; try reflexivity.
  - intros H. apply String.eqb_eq in H. now subst.
  - intros H. injection H as ->. apply String.eqb_refl.
Qed.

Lemma role_eqb_neq (a b : UserRole) : role_eqb a b = false <-> a <> b.
Proof.
  rewrite <- role_eqb_eq. destruct (role_eqb a b); split; congruence.
Qed.

Lemma status_eqb_neq (a b : ApprovalStatus) :
  status_eqb a b = false <-> a <> b.
Proof.
  rewrite <- status_eqb_eq. destruct (status_eqb a b); split; congruence.
Qed.

(** The test of the approval check. *)
Lemma approval_check (token : JWT) :
  negb (role_eqb (role token) ADMIN) && negb (role_eqb (role token) USER)
  && negb (status_eqb (approvalStatus token) APPROVED) = true <->
  role token <> ADMIN /\ role token <> USER /\
  approvalStatus token <> APPROVED.
Proof.
  rewrite !andb_true_iff, !negb_true_iff, !role_eqb_neq, status_eqb_neq.
  tauto.
Qed.

End Tokens.

Section Branches.

Variable request : NextRequest.

(** The URL of the redirect of a request without a token. *)
Lemma login_with_callback (value : string) :
  searchParams_set "callbackUrl" value (new_URL "/login" (nextUrl request))
  = {| origin := origin (nextUrl request);
       pathname := "/login";
       search := "?callbackUrl=" ++ urlencode value |}.
Proof. reflexivity. Qed.

(** On a path that is neither an asset nor public the middleware is in
    its last part. *)
Lemma middleware_protected (token : option JWT) :
  isPublicAsset (pathname (nextUrl request)) = false ->
  isPublic (pathname (nextUrl request)) = false ->
  middleware request token =
  match token with
  | None =>
      NextResponse.redirect
        {| origin := origin (nextUrl request);
           pathname := "/login";
           search := "?callbackUrl=" ++ urlencode (encodeURI (url request)) |}
  | Some token =>
      if negb (isActive token) then
        NextResponse.redirect
          {| origin := origin (nextUrl request);
             pathname := "/login";
             search := "?error=Account%20is%20inactive" |}
      else if negb (role_eqb (role token) ADMIN) &&
              negb (role_eqb (role token) USER) &&
              negb (status_eqb (approvalStatus token) APPROVED)
      then redirect_to request "/approval"
      else if (startsWith (pathname (nextUrl request)) "/admin" &&
               negb (role_eqb (role token) ADMIN))
              || (startsWith (pathname (nextUrl request)) "/agent" &&
                  negb (role_eqb (role token) AGENT))
              || (startsWith (pathname (nextUrl request)) "/employee" &&
                  negb (role_eqb (role token) EMPLOYEE))
      then redirect_to request "/"
      else NextResponse.next
  end.
Proof.
  unfold middleware, isPublic. intros -> ->.
  destruct token as [token|]; [|now rewrite login_with_callback].
  destruct (negb (isActive token)); [reflexivity|].
  destruct (negb (role_eqb (role token) ADMIN) &&
            negb (role_eqb (role token) USER) &&
            negb (status_eqb (approvalStatus token) APPROVED));
    [reflexivity|].
  destruct (startsWith (pathname (nextUrl request)) "/admin" &&
            negb (role_eqb (role token) ADMIN)); [reflexivity|].
  destruct (startsWith (pathname (nextUrl request)) "/agent" &&
            negb (role_eqb (role token) AGENT)); reflexivity.
Qed.

(** On a public path the middleware is in its second part. *)
Lemma middleware_public (token : option JWT) :
  isPublic (pathname (nextUrl request)) = true ->
  middleware request token =
  match token with
  | Some token =>
      if String.eqb (pathname (nextUrl request)) "/login"
         || startsWith (pathname (nextUrl request)) "/register"
      then
        if negb (role_eqb (role token) ADMIN) &&
           negb (role_eqb (role token) USER) &&
           negb (status_eqb (approvalStatus token) APPROVED)
        then redirect_to request "/approval"
        else redirect_to request (role_home (role token))
      else NextResponse.next
  | None => NextResponse.next
  end.
Proof.
  intros H. unfold middleware.
  rewrite (public_not_asset _ H). unfold isPublic in H. rewrite H.
  destruct token as [token|]; [|reflexivity].
  destruct (role token); reflexivity.
Qed.

End Branches.

(* ================================================================= *)
(** ** Properties of the decision *)

(** C5: a path that begins with one of the static-asset prefixes [/_next],
    [/images], [/fonts] or [/favicon] is let through, whatever the token
    is, and also without a token. *)
Theorem static_asset_is_allowed (request : NextRequest) (token : option JWT) :
  startsWith (pathname (nextUrl request)) "/_next" = true \/
  startsWith (pathname (nextUrl request)) "/images" = true \/
  startsWith (pathname (nextUrl request)) "/fonts" = true \/
  startsWith (pathname (nextUrl request)) "/favicon" = true ->
  middleware request token = NextResponse.next.
Proof.
  intros H. unfold middleware.
  replace (isPublicAsset (pathname (nextUrl request))) with true;
    [reflexivity|].
  unfold isPublicAsset.
  destruct H as [H|[H|[H|H]]]; rewrite H; now rewrite ?orb_true_r.
Qed.

Lemma static_asset_is_allowed_witness :
  startsWith "/_next/data/build.json" "/_next" = true /\
  middleware (request_for "/_next/data/build.json" "") None
  = NextResponse.next.
Proof.
  split; [reflexivity|].
  apply (static_asset_is_allowed (request_for "/_next/data/build.json" "")).
  left. reflexivity.
Defined.

(** C6: the static-asset test, the public-page test and the public-API
    test are pairwise disjoint, and every path is in exactly one of the
    four classes static-asset, public-page, public-api and protected, a
    path that passes none of the three tests being protected: the class
    whose test a path passes is the one [classify] finds. *)
Theorem route_classes_partition (path : string) :
  (isPublicAsset path && isPublicRoute path = false) /\
  (isPublicAsset path && isPublicApiRoute path = false) /\
  (isPublicRoute path && isPublicApiRoute path = false) /\
  (forall c : RouteClass, in_class c path = true <-> c = classify path).
Proof.
  generalize (asset_not_page path) (asset_not_api path) (page_not_api path).
  unfold classify, in_class.
  destruct (isPublicAsset path), (isPublicRoute path),
    (isPublicApiRoute path); intros Hap Haa Hpa;
    try discriminate (Hap eq_refl); try discriminate (Haa eq_refl);
    try discriminate (Hpa eq_refl);
    (repeat split; try reflexivity; try discriminate;
     try (destruct c; simpl; congruence)).
Qed.

(** C8: [/approval] and every path under [/approval/] is let through for
    every token and without one; so the target of a redirect to
    [/approval] is itself let through, and no loop of redirects passes
    through it. *)
Theorem approval_is_allowed (request : NextRequest) (token : option JWT) :
  pathname (nextUrl request) = "/approval" \/
  startsWith (pathname (nextUrl request)) "/approval/" = true ->
  middleware request token = NextResponse.next /\
  (forall (earlier : NextRequest) (token' : option JWT) (target : URL),
     middleware earlier token' = NextResponse.redirect target ->
     pathname target = "/approval" ->
     middleware {| nextUrl := target |} token = NextResponse.next).
Proof.
  intros H. split.
  - open_request request.
    destruct H as [-> | H];
      [|apply startsWith_iff in H; destruct H as [rest ->]];
      destruct token; reflexivity.
  - intros earlier token' [origin' path' query'] _ Htarget.
    cbn [pathname] in Htarget. subst path'. destruct token; reflexivity.
Qed.

Lemma approval_is_allowed_witness :
  startsWith "/approval/status" "/approval/" = true /\
  middleware (request_for "/approval/status" "") (Some pending_agent)
  = NextResponse.next.
Proof.
  split; [reflexivity|].
  apply (approval_is_allowed (request_for "/approval/status" "")
           (Some pending_agent)).
  right. reflexivity.
Defined.

(** C9: a path that begins with two slashes is a public page, through the
    entry [/] of the public routes and the rule of the trailing slash; the
    request is let through without a token, as for [//admin/x], and with
    any token, so the role checks are never reached for it. *)
Theorem double_slash_is_public (request : NextRequest) (token : option JWT) :
  startsWith (pathname (nextUrl request)) "//" = true ->
  startsWith (pathname (nextUrl request)) (with_slash "/") = true /\
  In "/" publicRoutes /\
  isPublicRoute (pathname (nextUrl request)) = true /\
  classify (pathname (nextUrl request)) = PublicPage /\
  middleware request None = NextResponse.next /\
  middleware request token = NextResponse.next.
Proof.
  intros H. open_request request.
  apply startsWith_iff in H. destruct H as [rest ->].
  repeat split; try reflexivity; [now left|].
  destruct token; reflexivity.
Qed.

Lemma double_slash_is_public_witness :
  startsWith "//admin/x" "//" = true /\
  isPublicRoute "//admin/x" = true /\
  middleware (request_for "//admin/x" "") None = NextResponse.next.
Proof.
  pose proof (double_slash_is_public (request_for "//admin/x" "") None
                eq_refl) as H.
  split; [reflexivity|]. split; [apply H | apply H].
Defined.

(** C1: on a path that is neither static-asset-prefixed nor public (not a
    public page and not a public API route), a request without a token is
    redirected to [/login], with a [callbackUrl] query parameter whose
    value is the URI-encoded URL of the request. *)
Theorem protected_without_token_goes_to_login (request : NextRequest) :
  isPublicAsset (pathname (nextUrl request)) = false ->
  isPublicRoute (pathname (nextUrl request)) = false ->
  isPublicApiRoute (pathname (nextUrl request)) = false ->
  exists target : URL,
    middleware request None = NextResponse.redirect target /\
    origin target = origin (nextUrl request) /\
    pathname target = "/login" /\
    searchParams target = [("callbackUrl", encodeURI (url request))] /\
    searchParams_get "callbackUrl" target = Some (encodeURI (url request)).
Proof.
  intros Hasset Hpage Hapi.
  exists (searchParams_set "callbackUrl" (encodeURI (url request))
            (new_URL "/login" (nextUrl request))).
  split; [|split; [|split; [|split]]].
  - unfold middleware. now rewrite Hasset, Hpage, Hapi.
  - reflexivity.
  - reflexivity.
  - now rewrite searchParams_after_set.
  - apply searchParams_get_set.
Qed.

Lemma protected_without_token_goes_to_login_witness :
  isPublicAsset "/admin/users" = false /\
  isPublicRoute "/admin/users" = false /\
  isPublicApiRoute "/admin/users" = false /\
  exists target : URL,
    middleware (request_for "/admin/users" "?page=2") None
    = NextResponse.redirect target /\
    origin target = "https://app.test" /\
    pathname target = "/login" /\
    searchParams target =
      [("callbackUrl", "https://app.test/admin/users?page=2")] /\
    searchParams_get "callbackUrl" target =
      Some "https://app.test/admin/users?page=2".
Proof.
  repeat (split; [reflexivity|]).
  apply (protected_without_token_goes_to_login
           (request_for "/admin/users" "?page=2")); reflexivity.
Defined.

(** C2: on a public path that is the login page or lies under the
    register prefix, a request with a token is redirected: to [/approval]
    when the role is neither ADMIN nor USER and the approval status is
    not APPROVED, and otherwise to the home of the role ([/admin] for
    ADMIN, [/agent] for AGENT, [/employee] for EMPLOYEE, [/] for any
    other role).  In particular an ADMIN token on [/login] is sent to
    [/admin]. *)
Theorem logged_in_on_login_or_register
        (request : NextRequest) (token : JWT) :
  isPublic (pathname (nextUrl request)) = true ->
  pathname (nextUrl request) = "/login" \/
  startsWith (pathname (nextUrl request)) "/register" = true ->
  (role token <> ADMIN /\ role token <> USER /\
   approvalStatus token <> APPROVED ->
   middleware request (Some token) = redirect_to request "/approval") /\
  (~ (role token <> ADMIN /\ role token <> USER /\
      approvalStatus token <> APPROVED) ->
   middleware request (Some token)
   = redirect_to request (role_home (role token))) /\
  (pathname (nextUrl request) = "/login" -> role token = ADMIN ->
   middleware request (Some token) = redirect_to request "/admin").
Proof.
  intros Hpublic Hpath. rewrite (middleware_public _ _ Hpublic).
  replace (String.eqb (pathname (nextUrl request)) "/login"
           || startsWith (pathname (nextUrl request)) "/register")
    with true
    by (destruct Hpath as [-> | ->]; now rewrite ?orb_true_r).
  pose proof (approval_check token) as Hcheck.
  destruct (negb (role_eqb (role token) ADMIN) &&
            negb (role_eqb (role token) USER) &&
            negb (status_eqb (approvalStatus token) APPROVED)).
  - split; [reflexivity|]. split.
    + intros H. exfalso. apply H, Hcheck. reflexivity.
    + intros _ Hadmin. destruct (proj1 Hcheck eq_refl) as [Hne _].
      contradiction.
  - split; [|split].
    + intros H. apply Hcheck in H. discriminate.
    + reflexivity.
    + intros _ ->. reflexivity.
Qed.

Lemma logged_in_on_login_or_register_witness :
  isPublic "/login" = true /\
  middleware (request_for "/login" "") (Some active_admin)
  = redirect_to (request_for "/login" "") "/admin".
Proof.
  split; [reflexivity|].
  apply (logged_in_on_login_or_register (request_for "/login" "")
           active_admin); [reflexivity | left; reflexivity | | ];
    reflexivity.
Defined.

(** C3: on a path that is neither static-asset-prefixed nor public, a
    request whose token has [isActive] false is redirected to [/login]
    with the query [?error=Account%20is%20inactive], whose [error]
    parameter reads [Account is inactive], whatever the role and the
    approval status are. *)
Theorem inactive_token_goes_to_login (request : NextRequest) (token : JWT) :
  isPublicAsset (pathname (nextUrl request)) = false ->
  isPublic (pathname (nextUrl request)) = false ->
  isActive token = false ->
  exists target : URL,
    middleware request (Some token) = NextResponse.redirect target /\
    origin target = origin (nextUrl request) /\
    pathname target ++ search target = "/login?error=Account%20is%20inactive" /\
    pathname target = "/login" /\
    searchParams target = [("error", "Account is inactive")] /\
    searchParams_get "error" target = Some "Account is inactive".
Proof.
  intros Hasset Hpublic Hactive.
  rewrite (middleware_protected _ _ Hasset Hpublic), Hactive. simpl negb.
  cbv iota. eexists. split; [reflexivity|]. repeat split.
Qed.

Lemma inactive_token_goes_to_login_witness :
  isPublicAsset "/agent/jobs" = false /\
  isPublic "/agent/jobs" = false /\
  isActive inactive_agent = false /\
  exists target : URL,
    middleware (request_for "/agent/jobs" "") (Some inactive_agent)
    = NextResponse.redirect target /\
    origin target = "https://app.test" /\
    pathname target ++ search target = "/login?error=Account%20is%20inactive" /\
    pathname target = "/login" /\
    searchParams target = [("error", "Account is inactive")] /\
    searchParams_get "error" target = Some "Account is inactive".
Proof.
  repeat (split; [reflexivity|]).
  apply (inactive_token_goes_to_login
           (request_for "/agent/jobs" "") inactive_agent); reflexivity.
Defined.

(** C4, as the code has it: a request for [/employee/dashboard] with an
    AGENT token that is active and whose approval status is APPROVED is
    redirected to [/]. *)
Theorem approved_agent_on_employee_dashboard
        (request : NextRequest) (token : JWT) :
  pathname (nextUrl request) = "/employee/dashboard" ->
  role token = AGENT ->
  isActive token = true ->
  approvalStatus token = APPROVED ->
  middleware request (Some token) = redirect_to request "/".
Proof.
  intros Hpath Hrole Hactive Hstatus.
  rewrite middleware_protected by (rewrite Hpath; reflexivity).
  now rewrite Hpath, Hrole, Hactive, Hstatus.
Qed.

Lemma approved_agent_on_employee_dashboard_witness :
  role approved_agent = AGENT /\
  isActive approved_agent = true /\
  approvalStatus approved_agent = APPROVED /\
  middleware (request_for "/employee/dashboard" "") (Some approved_agent)
  = redirect_to (request_for "/employee/dashboard" "") "/".
Proof.
  repeat (split; [reflexivity|]).
  apply (approved_agent_on_employee_dashboard
           (request_for "/employee/dashboard" "") approved_agent);
    reflexivity.
Defined.

(** C4, as the claim has it, fails: an AGENT token that is inactive is
    sent from [/employee/dashboard] to the login page, and one that
    awaits approval to [/approval], not to [/]. *)
Lemma agent_on_employee_dashboard_not_home :
  role inactive_agent = AGENT /\
  middleware (request_for "/employee/dashboard" "") (Some inactive_agent)
  = NextResponse.redirect
      {| origin := "https://app.test";
         pathname := "/login";
         search := "?error=Account%20is%20inactive" |} /\
  middleware (request_for "/employee/dashboard" "") (Some inactive_agent)
  <> redirect_to (request_for "/employee/dashboard" "") "/" /\
  role pending_agent = AGENT /\
  middleware (request_for "/employee/dashboard" "") (Some pending_agent)
  = redirect_to (request_for "/employee/dashboard" "") "/approval" /\
  middleware (request_for "/employee/dashboard" "") (Some pending_agent)
  <> redirect_to (request_for "/employee/dashboard" "") "/".
Proof.
  repeat split; try reflexivity; discriminate.
Qed.

(** C10: the decision is a pass-through or a redirect, on the origin of
    the request, to one of six paths: [/login], which carries the [error]
    query or the [callbackUrl] query, or [/approval], [/admin], [/agent],
    [/employee] or [/] without a query; and each of the six is the target
    of some decision. *)
Theorem redirect_targets :
  (forall (request : NextRequest) (token : option JWT),
     middleware request token = NextResponse.next \/
     exists target : URL,
       middleware request token = NextResponse.redirect target /\
       origin target = origin (nextUrl request) /\
       ((pathname target = "/login" /\
         (search target = "?error=Account%20is%20inactive" \/
          search target
          = "?callbackUrl=" ++ urlencode (encodeURI (url request)))) \/
        (In (pathname target)
            ["/approval"; "/admin"; "/agent"; "/employee"; "/"]
         /\ search target = ""))) /\
  Forall
    (fun path =>
       exists (request : NextRequest) (token : option JWT),
         target_path (middleware request token) = Some path)
    ["/login"; "/approval"; "/admin"; "/agent"; "/employee"; "/"].
Proof.
  split.
  - intros request token.
    destruct (isPublicAsset (pathname (nextUrl request))) eqn:Hasset.
    { left. unfold middleware. now rewrite Hasset. }
    destruct (isPublic (pathname (nextUrl request))) eqn:Hpublic.
    + rewrite (middleware_public _ _ Hpublic).
      destruct token as [token|]; [|now left].
      destruct (_ || _); [|now left].
      right. destruct (_ && _).
      * eexists. split; [reflexivity|]. split; [reflexivity|].
        right. simpl. tauto.
      * eexists. split; [reflexivity|]. split; [reflexivity|].
        right. destruct (role token); simpl; tauto.
    + rewrite (middleware_protected _ _ Hasset Hpublic).
      destruct token as [token|].
      * destruct (negb (isActive token)).
        { right. eexists. split; [reflexivity|]. simpl. tauto. }
        destruct (_ && _).
        { right. eexists. split; [reflexivity|]. simpl. tauto. }
        destruct (_ || _); [|now left].
        right. eexists. split; [reflexivity|]. simpl. tauto.
      * right. eexists. split; [reflexivity|]. simpl. tauto.
  - repeat constructor.
    + now exists (request_for "/agent/jobs" ""), None.
    + now exists (request_for "/agent/jobs" ""), (Some pending_agent).
    + now exists (request_for "/login" ""), (Some active_admin).
    + now exists (request_for "/login" ""), (Some approved_agent).
    + now exists (request_for "/register" ""),
        (Some {| role := EMPLOYEE; approvalStatus := APPROVED;
                 isActive := true |}).
    + now exists (request_for "/admin/users" ""), (Some approved_agent).
Qed.

(** C7, as the code has it: the decision is a function of the URL of the
    request and of the token.  The path and the token fix whether the
    request is let through and to which path it is redirected; with a
    token, or on a static-asset or public path, they also fix the query
    of the redirect; the origin and the URL of the request fix the
    rest. *)
Theorem decision_depends_on_url_and_token
        (request request' : NextRequest) (token : option JWT) :
  pathname (nextUrl request) = pathname (nextUrl request') ->
  target_path (middleware request token)
  = target_path (middleware request' token) /\
  (token <> None \/
   isPublicAsset (pathname (nextUrl request)) = true \/
   isPublic (pathname (nextUrl request)) = true ->
   target_query (middleware request token)
   = target_query (middleware request' token)) /\
  (origin (nextUrl request) = origin (nextUrl request') ->
   url request = url request' ->
   middleware request token = middleware request' token).
Proof.
  intros Hpath.
  destruct (isPublicAsset (pathname (nextUrl request))) eqn:Hasset.
  - unfold middleware. rewrite <- Hpath, Hasset. repeat split.
  - destruct (isPublic (pathname (nextUrl request))) eqn:Hpublic.
    + rewrite !middleware_public by (rewrite <- ?Hpath; exact Hpublic).
      rewrite <- Hpath. unfold redirect_to.
      destruct token as [token|]; [|repeat split].
      destruct (_ || _); [|repeat split].
      destruct (_ && _); repeat split; intros -> _; reflexivity.
    + rewrite !middleware_protected
        by (rewrite <- ?Hpath; assumption).
      rewrite <- Hpath. unfold redirect_to.
      destruct token as [token|].
      * destruct (negb (isActive token));
          [repeat split; intros -> _; reflexivity|].
        destruct (_ && _); [repeat split; intros -> _; reflexivity|].
        destruct (_ || _); repeat split; intros -> _; reflexivity.
      * split; [reflexivity|]. split.
        { intros [H|[H|H]]; [now elim H | discriminate | discriminate]. }
        intros -> ->. reflexivity.
Qed.

Lemma decision_depends_on_url_and_token_witness :
  pathname (nextUrl (request_for "/agent/jobs" "?tab=1"))
  = pathname (nextUrl (request_for "/agent/jobs" "?tab=2")) /\
  target_path (middleware (request_for "/agent/jobs" "?tab=1") None)
  = target_path (middleware (request_for "/agent/jobs" "?tab=2") None).
Proof.
  split; [reflexivity|].
  apply (decision_depends_on_url_and_token
           (request_for "/agent/jobs" "?tab=1")
           (request_for "/agent/jobs" "?tab=2") None eq_refl).
Defined.

(** C7, as the claim has it, fails: two requests for the same path without
    a token, which differ in their query, are redirected to different
    URLs, since the [callbackUrl] parameter holds the whole URL of the
    request. *)
Lemma same_path_and_token_different_decisions :
  pathname (nextUrl (request_for "/admin/users" "?page=1"))
  = pathname (nextUrl (request_for "/admin/users" "?page=2")) /\
  middleware (request_for "/admin/users" "?page=1") None
  = NextResponse.redirect
      {| origin := "https://app.test";
         pathname := "/login";
         search :=
           "?callbackUrl=https%3A%2F%2Fapp.test%2Fadmin%2Fusers%3Fpage%3D1" |} /\
  middleware (request_for "/admin/users" "?page=2") None
  = NextResponse.redirect
      {| origin := "https://app.test";
         pathname := "/login";
         search :=
           "?callbackUrl=https%3A%2F%2Fapp.test%2Fadmin%2Fusers%3Fpage%3D2" |} /\
  middleware (request_for "/admin/users" "?page=1") None
  <> middleware (request_for "/admin/users" "?page=2") None.
Proof.
  repeat split; try reflexivity. vm_compute. discriminate.
Qed.

(* ================================================================= *)
(** ** The decision, branch by branch *)

Section Decision.

Variable request : NextRequest.

Lemma middleware_asset (token : option JWT) :
  isPublicAsset (pathname (nextUrl request)) = true ->
  middleware request token = NextResponse.next.
Proof. intros H. unfold middleware. now rewrite H. Qed.

(** The three guarded areas are neither assets nor public. *)
Lemma role_area_is_protected (area : string) (r : UserRole) :
  In (area, r) role_areas ->
  startsWith (pathname (nextUrl request)) area = true ->
  isPublicAsset (pathname (nextUrl request)) = false /\
  isPublic (pathname (nextUrl request)) = false.
Proof.
  intros Harea Hprefix.
  destruct Harea as [H|[H|[H|[]]]]; injection H as <- <-;
    apply startsWith_iff in Hprefix; destruct Hprefix as [rest ->];
    split; reflexivity.
Qed.

(** The three checks of the areas, taken together. *)
Lemma area_check (token : JWT) :
  (startsWith (pathname (nextUrl request)) "/admin" &&
   negb (role_eqb (role token) ADMIN))
  || (startsWith (pathname (nextUrl request)) "/agent" &&
      negb (role_eqb (role token) AGENT))
  || (startsWith (pathname (nextUrl request)) "/employee" &&
      negb (role_eqb (role token) EMPLOYEE)) = false <->
  (forall area r, In (area, r) role_areas ->
     startsWith (pathname (nextUrl request)) area = true -> role token = r).
Proof.
  rewrite !orb_false_iff, !andb_false_iff, !negb_false_iff, !role_eqb_eq.
  split.
  - intros [[Hadmin Hagent] Hemployee] area r Hin Hprefix.
    destruct Hin as [E|[E|[E|[]]]]; injection E as <- <-;
      rewrite Hprefix in *; intuition congruence.
  - intros H. repeat split.
    + destruct (startsWith _ "/admin") eqn:P; [right|now left].
      apply (H "/admin"); [simpl; tauto | assumption].
    + destruct (startsWith _ "/agent") eqn:P; [right|now left].
      apply (H "/agent"); [simpl; tauto | assumption].
    + destruct (startsWith _ "/employee") eqn:P; [right|now left].
      apply (H "/employee"); [simpl; tauto | assumption].
Qed.

(** X1: without a token a request is let through exactly on the asset paths
    and on the public paths. *)
Theorem anonymous_allowed_iff :
  middleware request None = NextResponse.next <->
  isPublicAsset (pathname (nextUrl request)) = true \/
  isPublic (pathname (nextUrl request)) = true.
Proof.
  destruct (isPublicAsset (pathname (nextUrl request))) eqn:Hasset.
  - rewrite middleware_asset by assumption. tauto.
  - destruct (isPublic (pathname (nextUrl request))) eqn:Hpublic.
    + rewrite middleware_public by assumption. tauto.
    + rewrite middleware_protected by assumption.
      split; [discriminate | intros [H|H]; discriminate].
Qed.

(** X2: a public path other than the login page and the paths that begin
    with [/register] is let through for every token and without one. *)
Theorem public_page_ignores_token (token : option JWT) :
  isPublic (pathname (nextUrl request)) = true ->
  pathname (nextUrl request) <> "/login" ->
  startsWith (pathname (nextUrl request)) "/register" = false ->
  middleware request token = NextResponse.next.
Proof.
  intros Hpublic Hlogin Hregister.
  rewrite middleware_public by assumption.
  destruct token as [token|]; [|reflexivity].
  apply String.eqb_neq in Hlogin. now rewrite Hlogin, Hregister.
Qed.

(** X3: on a protected path an active token whose role is neither ADMIN nor
    USER and whose approval status is not APPROVED is sent to
    [/approval]. *)
Theorem unapproved_token_goes_to_approval (token : JWT) :
  isPublicAsset (pathname (nextUrl request)) = false ->
  isPublic (pathname (nextUrl request)) = false ->
  isActive token = true ->
  role token <> ADMIN ->
  role token <> USER ->
  approvalStatus token <> APPROVED ->
  middleware request (Some token) = redirect_to request "/approval".
Proof.
  intros Hasset Hpublic Hactive Hadmin Huser Hstatus.
  rewrite middleware_protected by assumption. rewrite Hactive. cbn [negb].
  now rewrite (proj2 (approval_check token)) by tauto.
Qed.

(** X4: in a guarded area an active token that passes the approval check but
    has another role than the one of the area is sent to [/]. *)
Theorem wrong_role_goes_home
        (token : JWT) (area : string) (r : UserRole) :
  In (area, r) role_areas ->
  startsWith (pathname (nextUrl request)) area = true ->
  isActive token = true ->
  role token = ADMIN \/ role token = USER \/
  approvalStatus token = APPROVED ->
  role token <> r ->
  middleware request (Some token) = redirect_to request "/".
Proof.
  intros Harea Hprefix Hactive Hcleared Hrole.
  destruct (role_area_is_protected _ _ Harea Hprefix) as [Hasset Hpublic].
  rewrite middleware_protected by assumption. rewrite Hactive. cbn [negb].
  pose proof (approval_check token) as Hcheck.
  destruct (negb (role_eqb (role token) ADMIN) &&
            negb (role_eqb (role token) USER) &&
            negb (status_eqb (approvalStatus token) APPROVED)).
  { destruct (proj1 Hcheck eq_refl) as [? [? ?]]. tauto. }
  apply role_eqb_neq in Hrole.
  destruct Harea as [H|[H|[H|[]]]]; injection H as <- <-;
    rewrite Hprefix, Hrole; now rewrite ?orb_true_r.
Qed.

(** X5: on a protected path a token is let through exactly when it is active,
    passes the approval check, and has the role of every guarded area the
    path begins with. *)
Theorem protected_allowed_iff (token : JWT) :
  isPublicAsset (pathname (nextUrl request)) = false ->
  isPublic (pathname (nextUrl request)) = false ->
  middleware request (Some token) = NextResponse.next <->
  isActive token = true /\
  (role token = ADMIN \/ role token = USER \/
   approvalStatus token = APPROVED) /\
  (forall area r, In (area, r) role_areas ->
     startsWith (pathname (nextUrl request)) area = true -> role token = r).
Proof.
  intros Hasset Hpublic. rewrite middleware_protected by assumption.
  pose proof (approval_check token) as Hcheck.
  destruct (isActive token); cbn [negb];
    [|split; [discriminate | intros [Hf _]; discriminate]].
  destruct (negb (role_eqb (role token) ADMIN) &&
            negb (role_eqb (role token) USER) &&
            negb (status_eqb (approvalStatus token) APPROVED)).
  { destruct (proj1 Hcheck eq_refl) as [? [? ?]].
    split; [discriminate | intros [_ [Hf _]]; tauto]. }
  assert (Hcleared : role token = ADMIN \/ role token = USER \/
                     approvalStatus token = APPROVED).
  { destruct (role_eqb (role token) ADMIN) eqn:E1;
      [apply role_eqb_eq in E1; tauto|].
    destruct (role_eqb (role token) USER) eqn:E2;
      [apply role_eqb_eq in E2; tauto|].
    destruct (status_eqb (approvalStatus token) APPROVED) eqn:E3;
      [apply status_eqb_eq in E3; tauto|].
    apply role_eqb_neq in E1, E2. apply status_eqb_neq in E3.
    assert (false = true) by (apply Hcheck; tauto). discriminate. }
  rewrite <- area_check.
  destruct (_ || _); split; try discriminate; try tauto.
  intros [_ [_ Hf]]. discriminate.
Qed.

(** X6: inside a guarded area only an active token with the role of the
    area is let through, and for the agent and employee areas only an
    approved one: an anonymous request, an inactive token and any other
    role are all turned away. *)
Theorem guarded_area_needs_role
        (token : option JWT) (area : string) (r : UserRole) :
  In (area, r) role_areas ->
  startsWith (pathname (nextUrl request)) area = true ->
  middleware request token = NextResponse.next ->
  exists t : JWT,
    token = Some t /\ role t = r /\ isActive t = true /\
    (r = ADMIN \/ approvalStatus t = APPROVED).
Proof.
  intros Harea Hprefix.
  destruct (role_area_is_protected _ _ Harea Hprefix) as [Hasset Hpublic].
  rewrite middleware_protected by assumption.
  destruct token as [t|]; [|discriminate].
  pose proof (approval_check t) as Hcheck.
  pose proof (area_check t) as Hareas.
  destruct (isActive t) eqn:Hactive; cbn [negb]; [|discriminate].
  destruct (negb (role_eqb (role t) ADMIN) &&
            negb (role_eqb (role t) USER) &&
            negb (status_eqb (approvalStatus t) APPROVED)) eqn:Echeck;
    [discriminate|].
  destruct (_ || _); [discriminate|]. intros _.
  assert (Hrole : role t = r) by now apply (proj1 Hareas eq_refl area).
  exists t. repeat split; try assumption.
  rewrite <- Hrole.
  destruct (role_eqb (role t) ADMIN) eqn:E1;
    [apply role_eqb_eq in E1; tauto|].
  destruct (status_eqb (approvalStatus t) APPROVED) eqn:E3;
    [apply status_eqb_eq in E3; tauto|].
  assert (E2 : role_eqb (role t) USER = false).
  { apply role_eqb_neq. rewrite Hrole.
    destruct Harea as [H|[H|[H|[]]]]; injection H as <- <-; discriminate. }
  rewrite ?E1, ?E2, ?E3 in Echeck. discriminate.
Qed.

(** X7: only a token whose role is neither ADMIN nor USER and whose approval
    status is not APPROVED is ever sent to [/approval]; a request without
    a token never is. *)
Theorem approval_redirect_reason (token : option JWT) :
  target_path (middleware request token) = Some "/approval" ->
  exists t : JWT,
    token = Some t /\ role t <> ADMIN /\ role t <> USER /\
    approvalStatus t <> APPROVED.
Proof.
  destruct (isPublicAsset (pathname (nextUrl request))) eqn:Hasset.
  { rewrite middleware_asset by assumption. discriminate. }
  destruct (isPublic (pathname (nextUrl request))) eqn:Hpublic;
    [rewrite middleware_public by assumption
    |rewrite middleware_protected by assumption];
    (destruct token as [t|]; [|discriminate]);
    pose proof (approval_check t) as Hcheck.
  - destruct (_ || _); [|discriminate].
    destruct (negb (role_eqb (role t) ADMIN) &&
              negb (role_eqb (role t) USER) &&
              negb (status_eqb (approvalStatus t) APPROVED)).
    + intros _. exists t. split; [reflexivity | now apply Hcheck].
    + destruct (role t); discriminate.
  - destruct (negb (isActive t)); [discriminate|].
    destruct (negb (role_eqb (role t) ADMIN) &&
              negb (role_eqb (role t) USER) &&
              negb (status_eqb (approvalStatus t) APPROVED)).
    + intros _. exists t. split; [reflexivity | now apply Hcheck].
    + destruct (_ || _); discriminate.
Qed.

(** X8: a redirect to [/login] happens on protected paths only, and for two
    reasons only: there is no token, and the query carries the callback
    URL, or the token is inactive, and the query carries the error. *)
Theorem login_redirect_reason (token : option JWT) :
  target_path (middleware request token) = Some "/login" ->
  isPublicAsset (pathname (nextUrl request)) = false /\
  isPublic (pathname (nextUrl request)) = false /\
  ((token = None /\
    target_query (middleware request token)
    = Some ("?callbackUrl=" ++ urlencode (encodeURI (url request)))) \/
   (exists t : JWT,
      token = Some t /\ isActive t = false /\
      target_query (middleware request token)
      = Some "?error=Account%20is%20inactive")).
Proof.
  destruct (isPublicAsset (pathname (nextUrl request))) eqn:Hasset.
  { rewrite middleware_asset by assumption. discriminate. }
  destruct (isPublic (pathname (nextUrl request))) eqn:Hpublic;
    [rewrite middleware_public by assumption
    |rewrite middleware_protected by assumption].
  - destruct token as [t|]; [|discriminate].
    destruct (_ || _); [|discriminate].
    destruct (_ && _); [discriminate|]. destruct (role t); discriminate.
  - intros H. split; [reflexivity|]. split; [reflexivity|].
    destruct token as [t|]; [right | left; now split].
    exists t. destruct (isActive t) eqn:Hactive; cbn [negb] in *;
      [|now repeat split].
    destruct (_ && _); [discriminate|]. destruct (_ || _); discriminate.
Qed.

End Decision.

Lemma public_page_ignores_token_witness :
  isPublic "/map/nearby" = true /\
  middleware (request_for "/map/nearby" "") (Some inactive_admin)
  = NextResponse.next.
Proof.
  split; [reflexivity|].
  apply (public_page_ignores_token (request_for "/map/nearby" "")
           (Some inactive_admin)); [reflexivity | discriminate | reflexivity].
Defined.

Lemma unapproved_token_goes_to_approval_witness :
  isPublic "/agent/jobs" = false /\
  middleware (request_for "/agent/jobs" "") (Some pending_agent)
  = redirect_to (request_for "/agent/jobs" "") "/approval".
Proof.
  split; [reflexivity|].
  apply (unapproved_token_goes_to_approval (request_for "/agent/jobs" "")
           pending_agent); try reflexivity; discriminate.
Defined.

Lemma wrong_role_goes_home_witness :
  startsWith "/administrator" "/admin" = true /\
  middleware (request_for "/administrator" "") (Some approved_agent)
  = redirect_to (request_for "/administrator" "") "/".
Proof.
  split; [reflexivity|].
  apply (wrong_role_goes_home (request_for "/administrator" "")
           approved_agent "/admin" ADMIN);
    [simpl; tauto | reflexivity | reflexivity | right; right; reflexivity
    | discriminate].
Defined.

Lemma protected_allowed_iff_witness :
  isPublicAsset "/dashboard" = false /\
  isPublic "/dashboard" = false /\
  middleware (request_for "/dashboard" "") (Some approved_agent)
  = NextResponse.next.
Proof.
  split; [reflexivity|]. split; [reflexivity|].
  apply (protected_allowed_iff (request_for "/dashboard" "") approved_agent
           eq_refl eq_refl).
  split; [reflexivity|]. split; [right; right; reflexivity|].
  intros area r [H|[H|[H|[]]]]; injection H as <- <-; discriminate.
Defined.

Lemma guarded_area_needs_role_witness :
  In ("/agent", AGENT) role_areas /\
  startsWith "/agent/jobs" "/agent" = true /\
  exists t : JWT,
    Some approved_agent = Some t /\ role t = AGENT /\ isActive t = true /\
    (AGENT = ADMIN \/ approvalStatus t = APPROVED).
Proof.
  split; [simpl; tauto|]. split; [reflexivity|].
  apply (guarded_area_needs_role (request_for "/agent/jobs" "")
           (Some approved_agent) "/agent" AGENT);
    [simpl; tauto | reflexivity | reflexivity].
Defined.

Lemma approval_redirect_reason_witness :
  target_path
    (middleware (request_for "/register/agent" "") (Some pending_agent))
  = Some "/approval" /\
  exists t : JWT,
    Some pending_agent = Some t /\ role t <> ADMIN /\ role t <> USER /\
    approvalStatus t <> APPROVED.
Proof.
  split; [reflexivity|].
  apply (approval_redirect_reason (request_for "/register/agent" "")
           (Some pending_agent)). reflexivity.
Defined.

Lemma login_redirect_reason_witness :
  target_path (middleware (request_for "/agent/jobs" "") (Some inactive_agent))
  = Some "/login" /\
  exists t : JWT,
    Some inactive_agent = Some t /\ isActive t = false /\
    target_query
      (middleware (request_for "/agent/jobs" "") (Some inactive_agent))
    = Some "?error=Account%20is%20inactive".
Proof.
  split; [reflexivity|].
  destruct (login_redirect_reason (request_for "/agent/jobs" "")
              (Some inactive_agent) eq_refl) as [_ [_ [[H _]|H]]];
    [discriminate H | exact H].
Defined.

(* ================================================================= *)
(** ** Chains of redirects *)

Section Redirects.

(** Split on the branch of the middleware a request is decided in. *)
Ltac by_branch request :=
  let Hasset := fresh "Hasset" in
  let Hpublic := fresh "Hpublic" in
  destruct (isPublicAsset (pathname (nextUrl request))) eqn:Hasset;
  [ rewrite (middleware_asset request) in * by assumption
  | destruct (isPublic (pathname (nextUrl request))) eqn:Hpublic;
    [ rewrite (middleware_public request) in * by assumption
    | rewrite (middleware_protected request) in * by assumption ] ].

(** X9: with an active token, and without a token, the target of a redirect
    is let through: no request is redirected twice in a row. *)
Theorem one_redirect_settles (request : NextRequest) (token : option JWT) :
  (forall t : JWT, token = Some t -> isActive t = true) ->
  follow 1 request token = NextResponse.next.
Proof.
  intros Hactive. cbn [follow]. by_branch request; [reflexivity| |].
  - destruct token as [t|]; [|reflexivity].
    destruct (_ || _); [|reflexivity].
    pose proof (Hactive t eq_refl) as Ht.
    destruct t as [r s active]. cbn [isActive] in Ht. subst active.
    destruct r, s; reflexivity.
  - destruct token as [t|]; [|reflexivity].
    pose proof (Hactive t eq_refl) as Ht.
    destruct t as [r s active]. cbn [isActive] in Ht. subst active.
    cbn [negb isActive role approvalStatus].
    destruct r, s; cbn [role_eqb status_eqb negb andb];
      try reflexivity; destruct (_ || _); reflexivity.
Qed.

Lemma one_redirect_settles_witness :
  middleware (request_for "/agent/jobs" "") (Some pending_agent)
  <> NextResponse.next /\
  follow 1 (request_for "/agent/jobs" "") (Some pending_agent)
  = NextResponse.next.
Proof.
  split; [discriminate|].
  apply (one_redirect_settles (request_for "/agent/jobs" "")
           (Some pending_agent)).
  intros t Ht. injection Ht as <-. reflexivity.
Defined.

(** The step of the loop: for an inactive token that is an ADMIN, or an
    approved AGENT or EMPLOYEE, the target of a redirect redirects
    again. *)
Lemma inactive_redirects_again
      (request : NextRequest) (t : JWT) (target : URL) :
  isActive t = false ->
  role t = ADMIN \/
  ((role t = AGENT \/ role t = EMPLOYEE) /\ approvalStatus t = APPROVED) ->
  middleware request (Some t) = NextResponse.redirect target ->
  middleware {| nextUrl := target |} (Some t) <> NextResponse.next.
Proof.
  intros Hactive Hrole Hdecision.
  destruct t as [r s active]. cbn [isActive role approvalStatus] in *.
  subst active. by_branch request; [discriminate| |].
  - destruct (_ || _); [|discriminate].
    destruct Hrole as [-> | [[-> | ->] ->]];
      cbn in Hdecision; injection Hdecision as <-; discriminate.
  - cbn in Hdecision. injection Hdecision as <-.
    destruct Hrole as [-> | [[-> | ->] ->]]; discriminate.
Qed.

(** X10: an inactive token that is an ADMIN, or an approved AGENT or EMPLOYEE,
    is caught in a loop: once it is redirected, on the login page, under
    [/register] or on a protected path, every target redirects again,
    between the home of the role and [/login], and no number of hops ends
    in a pass-through. *)
Theorem inactive_token_loops
        (request : NextRequest) (t : JWT) (hops : nat) :
  isActive t = false ->
  role t = ADMIN \/
  ((role t = AGENT \/ role t = EMPLOYEE) /\ approvalStatus t = APPROVED) ->
  middleware request (Some t) <> NextResponse.next ->
  follow hops request (Some t) <> NextResponse.next.
Proof.
  intros Hactive Hrole. revert request.
  induction hops as [|hops IH]; intros request Hfirst; cbn [follow];
    destruct (middleware request (Some t)) as [|target] eqn:Hdecision;
    try contradiction; [discriminate|].
  apply IH. eapply inactive_redirects_again; eassumption.
Qed.

Lemma inactive_token_loops_witness :
  middleware (request_for "/login" "") (Some inactive_admin)
  = redirect_to (request_for "/login" "") "/admin" /\
  middleware (request_for "/admin" "") (Some inactive_admin)
  = NextResponse.redirect
      {| origin := "https://app.test";
         pathname := "/login";
         search := "?error=Account%20is%20inactive" |} /\
  follow 7 (request_for "/login" "") (Some inactive_admin)
  <> NextResponse.next.
Proof.
  split; [reflexivity|]. split; [reflexivity|].
  apply (inactive_token_loops (request_for "/login" "") inactive_admin 7);
    [reflexivity | left; reflexivity | discriminate].
Defined.

(** X11: every other token comes to rest: when the role is not ADMIN, and the
    approval status is not APPROVED in case the role is AGENT or EMPLOYEE,
    a request is let through after two redirects at most, also when the
    token is inactive. *)
Theorem other_tokens_settle (request : NextRequest) (t : JWT) :
  role t <> ADMIN ->
  (role t = AGENT \/ role t = EMPLOYEE -> approvalStatus t <> APPROVED) ->
  follow 2 request (Some t) = NextResponse.next.
Proof.
  intros Hadmin Happroved.
  destruct t as [r s active]. cbn [role approvalStatus] in *.
  cbn [follow]. by_branch request; [reflexivity| |].
  - destruct (_ || _); [|reflexivity].
    destruct r, s; try reflexivity; try congruence;
      exfalso; apply Happroved; tauto.
  - destruct r, s, active; try reflexivity; try congruence;
      try (exfalso; apply Happroved; tauto);
      cbn [negb isActive role approvalStatus role_eqb status_eqb andb];
      try reflexivity; destruct (_ || _); reflexivity.
Qed.

Lemma other_tokens_settle_witness :
  follow 1 (request_for "/admin/users" "") (Some inactive_user)
  <> NextResponse.next /\
  follow 2 (request_for "/admin/users" "") (Some inactive_user)
  = NextResponse.next.
Proof.
  split; [discriminate|].
  apply (other_tokens_settle (request_for "/admin/users" "") inactive_user);
    [discriminate | intros [H|H]; discriminate].
Defined.

End Redirects.

(* ================================================================= *)
(** ** The route tests and the callback URL *)

Section Routes.

Lemma register_prefix_on_public_witness :
  isPublic "/register/agent/step-2" = true /\
  startsWith "/register/agent/step-2" "/register" = true /\
  ("/register/agent/step-2" = "/register" \/
   startsWith "/register/agent/step-2" "/register/" = true).
Proof.
  split; [reflexivity|]. split; [reflexivity|].
  apply (register_prefix_on_public "/register/agent/step-2"); reflexivity.
Defined.

Lemma startsWith_app (s p rest : string) :
  startsWith s p = true -> startsWith (s ++ rest) p = true.
Proof.
  rewrite !startsWith_iff. intros [tail ->]. exists (tail ++ rest).
  apply append_assoc.
Qed.

Lemma existsb_impl {A : Type} (f g : A -> bool) (l : list A) :
  (forall x, f x = true -> g x = true) ->
  existsb f l = true -> existsb g l = true.
Proof.
  intros Hfg. rewrite !existsb_exists. intros [x [Hin Hf]].
  exists x. auto.
Qed.

(** X13: every path under a public page is a public page: the test looks at
    the beginning of the path only, up to a slash. *)
Theorem public_page_subpaths (path rest : string) :
  isPublicRoute path = true ->
  isPublicRoute (path ++ String "/" rest) = true.
Proof.
  unfold isPublicRoute. apply existsb_impl. intros route H.
  apply orb_true_iff in H. apply orb_true_iff. right.
  destruct H as [H|H].
  - apply String.eqb_eq in H. subst route. apply startsWith_iff.
    exists rest. unfold with_slash. now rewrite append_assoc.
  - now apply startsWith_app.
Qed.

Lemma public_page_subpaths_witness :
  isPublicRoute "/rate" = true /\
  isPublicRoute ("/rate" ++ String "/" "42/edit") = true.
Proof.
  split; [reflexivity|].
  apply (public_page_subpaths "/rate" "42/edit"). reflexivity.
Defined.

(** X14: every path that continues a public API path is a public API path,
    with or without a slash in between: the test looks at the beginning
    of the path only. *)
Theorem public_api_extensions (path rest : string) :
  isPublicApiRoute path = true ->
  isPublicApiRoute (path ++ rest) = true.
Proof.
  unfold isPublicApiRoute. apply existsb_impl. intros route.
  apply startsWith_app.
Qed.

Lemma public_api_extensions_witness :
  isPublicApiRoute "/api/ratings" = true /\
  isPublicApiRoute ("/api/ratings" ++ "-export/all") = true.
Proof.
  split; [reflexivity|].
  apply (public_api_extensions "/api/ratings" "-export/all"). reflexivity.
Defined.

Lemma length_append (s t : string) :
  String.length (s ++ t) = String.length s + String.length t.
Proof. induction s as [|a s IH]; simpl; [reflexivity | now rewrite IH]. Qed.

Lemma encodeURI_length (s : string) :
  String.length s <= String.length (encodeURI s).
Proof.
  induction s as [|a s IH]; [apply le_n|].
  change (encodeURI (String a s))
    with ((if uri_unescaped a then String a EmptyString
           else percent_encode_byte a) ++ encodeURI s).
  rewrite length_append. destruct (uri_unescaped a); simpl; lia.
Qed.

(** [encodeURI] gives a string back unchanged exactly when it has no
    character to escape. *)
Lemma encodeURI_fixed_iff (s : string) :
  encodeURI s = s <-> all_chars uri_unescaped s = true.
Proof.
  induction s as [|a s IH]; [simpl; tauto|].
  change (encodeURI (String a s))
    with ((if uri_unescaped a then String a EmptyString
           else percent_encode_byte a) ++ encodeURI s).
  cbn [all_chars]. destruct (uri_unescaped a); cbn [andb].
  - rewrite <- IH. simpl. split; [now intros [= ->] | now intros ->].
  - split; [|discriminate]. intros H. exfalso.
    apply (f_equal String.length) in H. rewrite length_append in H.
    pose proof (encodeURI_length s). simpl in H. lia.
Qed.

(** X15: the callback URL that the login page reads from the redirect of a
    request without a token is the URL of the request exactly when that
    URL has no character that [encodeURI] escapes; a URL with a percent
    sign, for one, comes back with the sign escaped once more. *)
Theorem callback_reads_back_iff (request : NextRequest) :
  isPublicAsset (pathname (nextUrl request)) = false ->
  isPublic (pathname (nextUrl request)) = false ->
  exists target : URL,
    middleware request None = NextResponse.redirect target /\
    (searchParams_get "callbackUrl" target = Some (url request) <->
     all_chars uri_unescaped (url request) = true).
Proof.
  intros Hasset Hpublic.
  exists (searchParams_set "callbackUrl" (encodeURI (url request))
            (new_URL "/login" (nextUrl request))).
  split.
  - rewrite middleware_protected by assumption.
    now rewrite login_with_callback.
  - rewrite searchParams_get_set, <- encodeURI_fixed_iff.
    split; [now intros [= ->] | now intros ->].
Qed.

Lemma callback_reads_back_iff_witness :
  isPublic "/admin/users" = false /\
  all_chars uri_unescaped (url (request_for "/admin/users" "?q=a%20b"))
  = false /\
  exists target : URL,
    middleware (request_for "/admin/users" "?q=a%20b") None
    = NextResponse.redirect target /\
    searchParams_get "callbackUrl" target
    = Some "https://app.test/admin/users?q=a%2520b".
Proof.
  split; [reflexivity|]. split; [reflexivity|].
  destruct (callback_reads_back_iff
              (request_for "/admin/users" "?q=a%20b") eq_refl eq_refl)
    as [target [Hdecision _]].
  exists target. split; [exact Hdecision|].
  injection Hdecision as <-. reflexivity.
Defined.

End Routes.
